(** * Multi-fidelity experiment loop of the ATLAS example notebook

    Shallow embedding of [docs/source/examples/notebooks/multi_fidelity.ipynb]:
    the configuration constants (cell 4), the oracle [measure] (cell 6) and
    the budgeted experiment loop (cell 9).

    Conventions.
    - A Python float is a [float] below: NaN, a signed infinity, or a finite
      value kept as an exact rational.  [==] and [<] follow IEEE 754: every
      comparison with NaN is false.
    - Python exceptions are the constructors of [exn]; code that can raise
      returns a [result].
    - The planner ([atlas.planners.multi_fidelity.planner]) and the pickled
      lookup table are not part of the notebook: the planner is the interface
      [Planner], the table a parameter [LOOKUP] of [measure].
    - The module-level names the loop assigns ([COST], [iter_],
      [target_rec_measurements], [measurement]) and the campaign's
      observations form the record [State]; a name that is not bound yet is
      [None]. *)

From Stdlib Require Import ZArith QArith Bool Ascii String List Lia.
From stdpp Require Import base option list strings gmap.
Import ListNotations.

Local Open Scope Z_scope.

(** ** Python values *)

Module PyFloat.

Inductive float : Type :=
| NaN
| Inf (neg : bool)
| Fin (q : Q).

(** Python's [a == b] on floats. *)
Definition eqb (a b : float) : bool :=
  match a, b with
  | Fin p, Fin q => Qeq_bool p q
  | Inf x, Inf y => Bool.eqb x y
  | _, _ => false
  end.

(** Python's [a < b] on floats. *)
Definition ltb (a b : float) : bool :=
  match a, b with
  | NaN, _ | _, NaN => false
  | Inf true, Inf true => false
  | Inf true, _ => true
  | _, Inf true => false
  | Inf false, _ => false
  | Fin _, Inf false => true
  | Fin p, Fin q => negb (Qle_bool q p)
  end.

Definition is_nan (a : float) : bool :=
  match a with NaN => true | _ => false end.

(** An [int] compared with a float is compared by value. *)
Definition of_Z (z : Z) : float := Fin (inject_Z z).

(** The literals of the notebook.  [0.1] is the double nearest to one
    tenth, 3602879701896397 * 2^-55. *)
Definition lit_0_0 : float := Fin 0.
Definition lit_1_0 : float := Fin 1.
Definition lit_0_1 : float := Fin (3602879701896397 # 36028797018963968).

End PyFloat.
Export PyFloat.

Inductive exn : Type :=
| NameError (name : string)
| UnboundLocalError (name : string)
| KeyError (key : string)
| IndexError
| ValueError
| ZeroDivisionError
| PlannerError.

Inductive result (A : Type) : Type :=
| Ok (a : A)
| Raise (e : exn).
Arguments Ok {A} a.
Arguments Raise {A} e.

(** Sequencing: the first exception raised ends the computation. *)
#[global] Instance result_ret : MRet result := fun A a => Ok a.
#[global] Instance result_bind : MBind result := fun A B k r =>
  match r with
  | Ok a => k a
  | Raise e => Raise e
  end.

(** ** [str.capitalize], on ASCII strings

    The first character in upper case, the others in lower case.  This is
    [str.capitalize] (and [lower] is [str.lower]) on a [str] of ASCII
    characters only, [is_ascii] below; on other code points Python follows
    the Unicode case tables, which are not modelled.  No statement about
    [measure] uses more of [capitalize] than its being a function, except
    where it assumes [is_ascii]. *)

Definition is_ascii (o : string) : bool :=
  forallb (fun c => Nat.ltb (nat_of_ascii c) 128) (list_ascii_of_string o).

Definition upper_ascii (c : ascii) : ascii :=
  let n := nat_of_ascii c in
  if (Nat.leb 97 n && Nat.leb n 122)%bool then ascii_of_nat (n - 32) else c.

Definition lower_ascii (c : ascii) : ascii :=
  let n := nat_of_ascii c in
  if (Nat.leb 65 n && Nat.leb n 90)%bool then ascii_of_nat (n + 32) else c.

Fixpoint lower (s : string) : string :=
  match s with
  | EmptyString => EmptyString
  | String c r => String (lower_ascii c) (lower r)
  end.

Definition capitalize (s : string) : string :=
  match s with
  | EmptyString => EmptyString
  | String c r => String (upper_ascii c) (lower r)
  end.

(** ** Samples and the oracle (cell 6) *)

(** A [ParameterVector] of the notebook's parameter space: the fidelity
    parameter [s] and the three perovskite components. *)
Record Sample : Type := mkSample {
  s : float;
  organic : string;
  cation : string;
  anion : string;
}.

(** [d[key]] on a dict with string keys. *)
Definition getitem {V} (d : gmap string V) (key : string) : result V :=
  match d !! key with
  | Some v => Ok v
  | None => Raise (KeyError key)
  end.

(** [np.amin] of a table entry, an array of bandgaps (a scalar entry is
    the array of one): the minimum of the entries, NaN if one of them is
    NaN, and a [ValueError] on an empty array. *)
Definition fmin (a b : float) : float :=
  if is_nan a then a else if is_nan b then b else if ltb b a then b else a.

Definition amin (l : list float) : result float :=
  match l with
  | [] => Raise ValueError
  | x :: xs => Ok (fold_left fmin xs x)
  end.

Abbreviation Table :=
  (gmap string (gmap string (gmap string (gmap string (list float))))).

(** [LOOKUP[params.organic.capitalize()][params.cation][params.anion][key]] *)
Definition lookup_bandgaps (LOOKUP : Table) (params : Sample) (key : string)
  : result (list float) :=
  d1 ← getitem LOOKUP (capitalize (organic params));
  d2 ← getitem d1 (cation params);
  d3 ← getitem d2 (anion params);
  getitem d3 key.

(** [def measure(params, s)].  The local [measurement] is assigned in the
    two branches only; the final [return measurement] finds it unbound
    otherwise. *)
Definition measure (LOOKUP : Table) (params : Sample) (s : float)
  : result float :=
  if eqb s lit_1_0 then
    l ← lookup_bandgaps LOOKUP params "bandgap_hse06"%string; amin l
  else if eqb s lit_0_1 then
    l ← lookup_bandgaps LOOKUP params "bandgap_gga"%string; amin l
  else Raise (UnboundLocalError "measurement"%string).

(** ** Configuration (cell 4) and the planner interface *)

(** The constants of cell 4, and [min_hse06_bandgap], which cell 9 reads
    and no cell of the notebook defines. *)
Record Config : Type := mkConfig {
  COST_BUDGET : Z;
  NUM_INIT_DESIGN : Z;
  NUM_CHEAP : Z;
  min_hse06_bandgap : float;
}.

Abbreviation Observation := (Sample * float)%type.

(** The three planner methods the loop calls, over the planner's own state
    [P].  A call returns what Python returns or raises, and the planner as
    the call left it. *)
Class Planner (P : Type) : Type := {
  set_ask_fidelity : float -> P -> P;
  recommend : list Observation -> P -> result (list Sample) * P;
  recommend_target_fidelity : Z -> P -> result (list Sample) * P;
}.

(** ** The experiment loop (cell 9) *)

Section Loop.

Context {P : Type} `{Planner P}.
Variable LOOKUP : Table.
Variable cfg : Config.

Record State : Type := mkState {
  COST : float;
  target_rec_measurements : list float;
  iter_ : Z;
  campaign : list Observation;
  measurement : option float;
  planner : P;
}.

(** The state cell 9 starts from, in a kernel that ran the cells once. *)
Definition init (p : P) : State :=
  {| COST := lit_0_0; target_rec_measurements := []; iter_ := 0;
     campaign := []; measurement := None; planner := p |}.

Definition num_obs (st : State) : Z := Z.of_nat (length (campaign st)).

Definition set_planner (p : P) (st : State) : State :=
  {| COST := COST st; target_rec_measurements := target_rec_measurements st;
     iter_ := iter_ st; campaign := campaign st;
     measurement := measurement st; planner := p |}.

(** [target_rec_measurements.append(m)] *)
Definition append_target_rec (m : float) (st : State) : State :=
  {| COST := COST st;
     target_rec_measurements := target_rec_measurements st ++ [m];
     iter_ := iter_ st; campaign := campaign st;
     measurement := measurement st; planner := planner st |}.

(** The three statements of the [for] body once [measure] has returned:
    bind [measurement], [campaign.add_observation], [iter_ += 1]. *)
Definition record_sample (sample : Sample) (m : float) (st : State) : State :=
  {| COST := COST st; target_rec_measurements := target_rec_measurements st;
     iter_ := iter_ st + 1; campaign := campaign st ++ [(sample, m)];
     measurement := Some m; planner := planner st |}.

(** [if iter_ % NUM_CHEAP == 0: 1.0 else: 0.1]; [%] by zero raises. *)
Definition ask_fidelity (i k : Z) : result float :=
  if k =? 0 then Raise ZeroDivisionError
  else Ok (if i mod k =? 0 then lit_1_0 else lit_0_1).

(** [set_ask_fidelity] and [samples = planner.recommend(...)]. *)
Definition requested (st : State) : result (list Sample) * State :=
  match ask_fidelity (iter_ st) (NUM_CHEAP cfg) with
  | Raise e => (Raise e, st)
  | Ok fid =>
      let '(r, p) :=
        recommend (campaign st) (set_ask_fidelity fid (planner st)) in
      (r, set_planner p st)
  end.

(** [for sample in samples: ...]; stops at the first exception. *)
Fixpoint for_samples (samples : list Sample) (st : State)
  : State * option exn :=
  match samples with
  | [] => (st, None)
  | sample :: rest =>
      match measure LOOKUP sample (s sample) with
      | Raise e => (st, Some e)
      | Ok m => for_samples rest (record_sample sample m st)
      end
  end.

(** How one pass of the [while] body ends. *)
Inductive Pass : Type :=
| Continue (st : State)
| Break (st : State)
| Abort (e : exn) (st : State).

Definition state_of (r : Pass) : State :=
  match r with Continue st | Break st | Abort _ st => st end.

(** The [if campaign.num_obs > NUM_INIT_DESIGN] branch. *)
Definition greedy_check (st : State) : Pass :=
  let '(r, p) := recommend_target_fidelity 1 (planner st) in
  let st1 := set_planner p st in
  match r with
  | Raise e => Abort e st1
  | Ok [] => Abort IndexError st1
  | Ok (rec_sample :: _) =>
      match measure LOOKUP rec_sample (s rec_sample) with
      | Raise e => Abort e st1
      | Ok rec_measurement =>
          let st2 := append_target_rec rec_measurement st1 in
          if eqb rec_measurement (min_hse06_bandgap cfg)
          then Break st2 else Continue st2
      end
  end.

(** The [else] branch. *)
Definition init_design_check (samples : list Sample) (st : State) : Pass :=
  match measurement st with
  | None => Abort (NameError "measurement"%string) st
  | Some m =>
      let st1 := append_target_rec m st in
      if eqb m (min_hse06_bandgap cfg) then
        match samples with
        | [] => Abort IndexError st1
        | sample0 :: _ =>
            if eqb (s sample0) lit_1_0 then Break st1 else Continue st1
        end
      else Continue st1
  end.

Definition convergence_check (samples : list Sample) (st : State) : Pass :=
  if num_obs st >? NUM_INIT_DESIGN cfg
  then greedy_check st
  else init_design_check samples st.

(** One pass of the [while] body. *)
Definition loop_body (st : State) : Pass :=
  match requested st with
  | (Raise e, st1) => Abort e st1
  | (Ok samples, st1) =>
      match for_samples samples st1 with
      | (st2, Some e) => Abort e st2
      | (st2, None) => convergence_check samples st2
      end
  end.

(** How the cell ends: the [while] condition became false, a [break],
    an exception; [OutOfFuel] when [fuel] passes did not end it. *)
Inductive Outcome : Type :=
| BudgetExhausted (st : State)
| Converged (st : State)
| Aborted (e : exn) (st : State)
| OutOfFuel (st : State).

(** [while COST < COST_BUDGET: ...] *)
Fixpoint run (fuel : nat) (st : State) : Outcome :=
  match fuel with
  | O => OutOfFuel st
  | S fuel' =>
      if ltb (COST st) (of_Z (COST_BUDGET cfg)) then
        match loop_body st with
        | Continue st' => run fuel' st'
        | Break st' => Converged st'
        | Abort e st' => Aborted e st'
        end
      else BudgetExhausted st
  end.

(** The state the cell ended in. *)
Definition final (o : Outcome) : State :=
  match o with
  | BudgetExhausted st | Converged st | Aborted _ st | OutOfFuel st => st
  end.

(** An observation is committed when its measurement is what the oracle
    returns for its sample at the sample's own fidelity. *)
Definition committed (o : Observation) : Prop :=
  measure LOOKUP o.1 (s o.1) = Ok o.2.

(** [reachable batches st]: the [while] loop is about to test its
    condition in [st], after one completed pass per entry of [batches],
    the batch the planner recommended in that pass. *)
Inductive reachable : list (list Sample) -> State -> Prop :=
| reach_init p : reachable [] (init p)
| reach_pass batches st samples st1 st' :
    reachable batches st ->
    ltb (COST st) (of_Z (COST_BUDGET cfg)) = true ->
    requested st = (Ok samples, st1) ->
    loop_body st = Continue st' ->
    reachable (batches ++ [samples]) st'.

End Loop.

Arguments State P : clear implicits.
Arguments Pass P : clear implicits.
Arguments Outcome P : clear implicits.

(** ** Fixtures: a two-entry lookup table and two stub planners *)

Module Fixture.

(** [0.8], the double 3602879701896397 * 2^-52. *)
Definition lit_0_8 : float := Fin (3602879701896397 # 4503599627370496).

Definition bandgaps (hse06 gga : list float) : gmap string (list float) :=
  <["bandgap_hse06"%string := hse06]> {["bandgap_gga"%string := gga]}.

(** Ma/Pb/I: HSE06 [2.0, 1.5], GGA [1.25];
    Fa/Sn/Br: HSE06 [1.0, 0.8], GGA [0.8]. *)
Definition table : Table :=
  <["Ma"%string :=
      {["Pb"%string :=
          {["I"%string := bandgaps [Fin 2; Fin (3 # 2)] [Fin (5 # 4)]]}]}]>
  {["Fa"%string :=
      {["Sn"%string :=
          {["Br"%string := bandgaps [lit_1_0; lit_0_8] [lit_0_8]]}]}]}.

Definition ma_pb_i (fid : float) : Sample :=
  mkSample fid "ma" "Pb" "I".
Definition fa_sn_br (fid : float) : Sample :=
  mkSample fid "fa" "Sn" "Br".
(** A combination the table does not hold. *)
Definition unseen : Sample := mkSample lit_1_0 "ea" "Ge" "Cl".

(** The configuration of the notebook, with 0.8 as the known optimum. *)
Definition scenario : Config :=
  {| COST_BUDGET := 50; NUM_INIT_DESIGN := 10; NUM_CHEAP := 8;
     min_hse06_bandgap := lit_0_8 |}.

(** A planner that always proposes Ma/Pb/I, at the fidelity it was asked
    for, and the same compound as its greedy recommendation. *)
Record Echo : Type := mkEcho { echo_asked : float }.

#[global] Instance echo_planner : Planner Echo := {|
  set_ask_fidelity fid _ := mkEcho fid;
  recommend _ p := (Ok [ma_pb_i (echo_asked p)], p);
  recommend_target_fidelity _ p := (Ok [ma_pb_i lit_1_0], p);
|}.

(** A planner that replays a script of batches (or exceptions), and
    raises once the script is over; its greedy recommendation is fixed. *)
Record Scripted : Type := mkScripted {
  asked : float;
  script : list (result (list Sample));
  greedy : result (list Sample);
}.

#[global] Instance scripted_planner : Planner Scripted := {|
  set_ask_fidelity fid p := mkScripted fid (script p) (greedy p);
  recommend _ p :=
    match script p with
    | [] => (Raise PlannerError, p)
    | b :: bs => (b, mkScripted (asked p) bs (greedy p))
    end;
  recommend_target_fidelity _ p := (greedy p, p);
|}.

Definition replay (bs : list (result (list Sample)))
    (g : result (list Sample)) : Scripted :=
  mkScripted lit_0_0 bs g.

End Fixture.

(** ** Frame and ledger facts about one pass *)

Section LoopFacts.

Context {P : Type} `{Planner P}.
Variable LOOKUP : Table.
Variable cfg : Config.

Lemma for_samples_frame samples : forall (st st' : State P) oe,
  for_samples LOOKUP samples st = (st', oe) ->
  COST st' = COST st
  /\ target_rec_measurements st' = target_rec_measurements st
  /\ planner st' = planner st.
Proof.
  induction samples as [|x xs IH]; simpl; intros st st' oe Hfor.
  - by inversion Hfor.
  - destruct (measure LOOKUP x (s x)) as [m|e].
    + apply IH in Hfor. simpl in Hfor. exact Hfor.
    + by inversion Hfor.
Qed.

(** The [for] loop appends one committed observation per sample it got
    through, in order, and counts each in [iter_]. *)
Lemma for_samples_ledger samples : forall (st st' : State P) oe,
  for_samples LOOKUP samples st = (st', oe) ->
  exists done : list Observation,
    campaign st' = campaign st ++ done
    /\ Forall (committed LOOKUP) done
    /\ done.*1 = take (length done) samples
    /\ iter_ st' = iter_ st + Z.of_nat (length done)
    /\ (oe = None -> done.*1 = samples).
Proof.
  induction samples as [|x xs IH]; simpl; intros st st' oe Hfor.
  - inversion Hfor; subst. exists []. rewrite app_nil_r.
    repeat split; auto. simpl; lia.
  - destruct (measure LOOKUP x (s x)) as [m|e] eqn:Hm.
    + apply IH in Hfor as (done & Hc & Hall & Htk & Hit & Hnone).
      exists ((x, m) :: done). simpl in *.
      rewrite Hc, <- app_assoc.
      split; [done|]. split; [by constructor|].
      split; [by f_equal|]. split; [lia|].
      intros Hoe. f_equal. by apply Hnone.
    + inversion Hfor; subst. exists []. rewrite app_nil_r.
      repeat split; auto; [simpl; lia | discriminate].
Qed.

(** After the [for] loop, [measurement] is bound to the measurement of
    the last observation, when there is one. *)
Lemma for_samples_measurement samples : forall (st st' : State P) oe,
  measurement st = snd <$> last (campaign st) ->
  for_samples LOOKUP samples st = (st', oe) ->
  measurement st' = snd <$> last (campaign st').
Proof.
  induction samples as [|x xs IH]; simpl; intros st st' oe Hinv Hfor.
  - by inversion Hfor; subst.
  - destruct (measure LOOKUP x (s x)) as [m|e].
    + eapply IH; [|exact Hfor]. simpl. by rewrite last_snoc.
    + by inversion Hfor; subst.
Qed.

Lemma requested_frame (st : State P) r st1 :
  requested cfg st = (r, st1) ->
  COST st1 = COST st /\ campaign st1 = campaign st
  /\ iter_ st1 = iter_ st /\ measurement st1 = measurement st
  /\ target_rec_measurements st1 = target_rec_measurements st.
Proof.
  unfold requested. destruct (ask_fidelity _ _) as [fid|e].
  - destruct (recommend _ _) as [r' p]. by inversion 1; subst.
  - by inversion 1; subst.
Qed.

Lemma greedy_check_frame (st : State P) :
  COST (state_of (greedy_check LOOKUP cfg st)) = COST st
  /\ campaign (state_of (greedy_check LOOKUP cfg st)) = campaign st
  /\ iter_ (state_of (greedy_check LOOKUP cfg st)) = iter_ st
  /\ measurement (state_of (greedy_check LOOKUP cfg st)) = measurement st.
Proof.
  unfold greedy_check.
  destruct (recommend_target_fidelity 1 (planner st)) as [[[|r rs]|e] p];
    simpl; auto.
  destruct (measure LOOKUP r (s r)) as [m|e]; simpl; auto.
  destruct (eqb m _); simpl; auto.
Qed.

Lemma init_design_check_frame samples (st : State P) :
  COST (state_of (init_design_check cfg samples st)) = COST st
  /\ campaign (state_of (init_design_check cfg samples st)) = campaign st
  /\ iter_ (state_of (init_design_check cfg samples st)) = iter_ st
  /\ measurement (state_of (init_design_check cfg samples st))
     = measurement st
  /\ planner (state_of (init_design_check cfg samples st)) = planner st.
Proof.
  unfold init_design_check.
  destruct (measurement st) as [m|] eqn:Hm; simpl; auto.
  destruct (eqb m _); simpl; auto.
  destruct samples as [|s0 ?]; simpl; auto.
  destruct (eqb (s s0) lit_1_0); simpl; auto.
Qed.

Lemma convergence_check_frame samples (st : State P) :
  COST (state_of (convergence_check LOOKUP cfg samples st)) = COST st
  /\ campaign (state_of (convergence_check LOOKUP cfg samples st))
     = campaign st
  /\ iter_ (state_of (convergence_check LOOKUP cfg samples st)) = iter_ st
  /\ measurement (state_of (convergence_check LOOKUP cfg samples st))
     = measurement st.
Proof.
  unfold convergence_check. destruct (_ >? _).
  - apply greedy_check_frame.
  - pose proof (init_design_check_frame samples st). tauto.
Qed.

(** No statement of the loop body assigns [COST]. *)
Lemma loop_body_COST (st : State P) :
  COST (state_of (loop_body LOOKUP cfg st)) = COST st.
Proof.
  unfold loop_body.
  destruct (requested cfg st) as [[samples|e] st1] eqn:Hreq;
    apply requested_frame in Hreq as (Hc & _); simpl; auto.
  destruct (for_samples LOOKUP samples st1) as [st2 [e|]] eqn:Hfor;
    apply for_samples_frame in Hfor as (Hc2 & _); simpl.
  - congruence.
  - pose proof (convergence_check_frame samples st2) as (Hc3 & _).
    congruence.
Qed.

Lemma run_COST fuel : forall st : State P,
  COST (final (run LOOKUP cfg fuel st)) = COST st.
Proof.
  induction fuel as [|n IH]; simpl; intros st; [done|].
  destruct (ltb _ _); [|done].
  pose proof (loop_body_COST st) as Hc.
  destruct (loop_body LOOKUP cfg st) as [st'|st'|e st']; simpl in *;
    [rewrite IH|..]; done.
Qed.

End LoopFacts.

(** ** Order facts for [ltb] and the minimum computed by [amin] *)

Section FloatOrder.

Lemma ltb_irrefl a : ltb a a = false.
Proof.
  destruct a as [|[]|q]; simpl; try reflexivity.
  apply negb_false_iff, Qle_bool_iff, Qle_refl.
Qed.

Lemma ltb_asym a b : ltb a b = true -> ltb b a = false.
Proof.
  destruct a as [|[]|p], b as [|[]|q]; simpl; try done.
  rewrite negb_true_iff, negb_false_iff. intros Hlt.
  apply Qle_bool_iff, Qlt_le_weak, Qnot_le_lt.
  intros Hle. apply Qle_bool_iff in Hle. congruence.
Qed.

(** [ltb b a = false] reads [a <= b] when neither is NaN. *)
Lemma nlt_trans a b c :
  is_nan b = false ->
  ltb b a = false -> ltb c b = false -> ltb c a = false.
Proof.
  destruct a as [|[]|p], b as [|[]|q], c as [|[]|r]; simpl; try done.
  rewrite !negb_false_iff, !Qle_bool_iff. intros _ Hpq Hqr.
  by apply Qle_trans with q.
Qed.

Lemma fmin_not_nan a b :
  is_nan a = false -> is_nan b = false -> is_nan (fmin a b) = false.
Proof.
  unfold fmin. intros Ha Hb. rewrite Ha, Hb. by destruct (ltb b a).
Qed.

Lemma fold_fmin_spec xs : forall a,
  is_nan a = false ->
  Forall (fun x => is_nan x = false) xs ->
  is_nan (fold_left fmin xs a) = false
  /\ (fold_left fmin xs a = a \/ fold_left fmin xs a ∈ xs)
  /\ ltb a (fold_left fmin xs a) = false
  /\ Forall (fun x => ltb x (fold_left fmin xs a) = false) xs.
Proof.
  induction xs as [|y ys IH]; simpl; intros a Ha Hxs.
  - repeat split; auto using ltb_irrefl.
  - apply Forall_cons in Hxs as [Hy Hys].
    pose proof (fmin_not_nan a y Ha Hy) as Hacc.
    destruct (IH (fmin a y) Hacc Hys) as (Hm & Hin & Hle & Hall).
    assert (Hacc_a : ltb a (fmin a y) = false).
    { unfold fmin. rewrite Ha, Hy.
      destruct (ltb y a) eqn:E; auto using ltb_asym, ltb_irrefl. }
    assert (Hacc_y : ltb y (fmin a y) = false).
    { unfold fmin. rewrite Ha, Hy.
      destruct (ltb y a) eqn:E; auto using ltb_irrefl. }
    split; [exact Hm|]. split; [|split].
    + destruct Hin as [->|Hin].
      * unfold fmin. rewrite Ha, Hy.
        destruct (ltb y a); [right; left|left]; done.
      * right. by right.
    + by apply nlt_trans with (fmin a y).
    + constructor; [|exact Hall]. by apply nlt_trans with (fmin a y).
Qed.

(** On an array without NaN, [np.amin] returns an entry that no entry is
    below. *)
Lemma amin_spec l m :
  Forall (fun x => is_nan x = false) l ->
  amin l = Ok m ->
  m ∈ l /\ Forall (fun x => ltb x m = false) l.
Proof.
  destruct l as [|x xs]; simpl; [done|].
  intros Hl Hm. apply Forall_cons in Hl as [Hx Hxs].
  injection Hm as <-.
  destruct (fold_fmin_spec xs x Hx Hxs) as (_ & Hin & Hle & Hall).
  split.
  - destruct Hin as [->|Hin]; [left | by right].
  - by constructor.
Qed.

End FloatOrder.

(** ** The oracle *)

(** C10: [measure] returns a value only at fidelity 1.0, where it is the
    [np.amin] of the HSE06 bandgaps found in the table, and at fidelity 0.1,
    where it is the [np.amin] of the GGA bandgaps (an entry that no entry is
    below, when the array has no NaN); at every other fidelity no branch
    binds [measurement] and the call raises the unbound-variable error. *)
Theorem measure_only_at_known_fidelities
    (LOOKUP : Table) (params : Sample) (sf : float) :
  (forall m, measure LOOKUP params sf = Ok m ->
     exists l,
       amin l = Ok m
       /\ (Forall (fun x => is_nan x = false) l ->
           m ∈ l /\ Forall (fun x => ltb x m = false) l)
       /\ ((eqb sf lit_1_0 = true
            /\ lookup_bandgaps LOOKUP params "bandgap_hse06" = Ok l)
           \/ (eqb sf lit_1_0 = false /\ eqb sf lit_0_1 = true
               /\ lookup_bandgaps LOOKUP params "bandgap_gga" = Ok l)))
  /\ (eqb sf lit_1_0 = false -> eqb sf lit_0_1 = false ->
      measure LOOKUP params sf = Raise (UnboundLocalError "measurement")).
Proof.
  unfold measure. split.
  - intros m. destruct (eqb sf lit_1_0) eqn:Hhi.
    + destruct (lookup_bandgaps LOOKUP params "bandgap_hse06") as [l|e] eqn:Hl;
        simpl; [|done].
      intros Hm. exists l. split; [done|]. split; [|by left].
      intros Hnan. by apply amin_spec.
    + destruct (eqb sf lit_0_1) eqn:Hlo; [|done].
      destruct (lookup_bandgaps LOOKUP params "bandgap_gga") as [l|e] eqn:Hl;
        simpl; [|done].
      intros Hm. exists l. split; [done|]. split; [|by right].
      intros Hnan. by apply amin_spec.
  - by intros -> ->.
Qed.

Lemma measure_only_at_known_fidelities_witness :
  measure Fixture.table (Fixture.ma_pb_i (Fin (1 # 2))) (Fin (1 # 2))
  = Raise (UnboundLocalError "measurement").
Proof.
  apply (proj2 (measure_only_at_known_fidelities
                  Fixture.table (Fixture.ma_pb_i (Fin (1 # 2))) (Fin (1 # 2))));
    reflexivity.
Defined.

(** ** The fidelity schedule *)

(** C4: for an iteration index [i >= 0] and a cadence [k >= 1] the loop asks
    the planner for fidelity 1.0 exactly when [i mod k = 0] and for fidelity
    0.1 otherwise; the fidelity is computed from [iter_] and [NUM_CHEAP]
    alone, and it is the one set on the planner before [recommend]. *)
Theorem fidelity_schedule {P : Type} `{Planner P}
    (cfg : Config) (st : State P) (i k : Z) :
  0 <= i -> 1 <= k ->
  (ask_fidelity i k = Ok lit_1_0 <-> i mod k = 0)
  /\ (i mod k <> 0 -> ask_fidelity i k = Ok lit_0_1)
  /\ (iter_ st = i -> NUM_CHEAP cfg = k ->
      exists fid,
        ask_fidelity i k = Ok fid
        /\ requested cfg st =
           (let '(r, p) :=
              recommend (campaign st) (set_ask_fidelity fid (planner st)) in
            (r, set_planner p st))).
Proof.
  intros Hi Hk. unfold ask_fidelity, requested.
  assert ((k =? 0) = false) as Hk0 by lia.
  rewrite Hk0. split; [|split].
  - destruct (i mod k =? 0) eqn:E; split; try done; lia.
  - intros Hne. destruct (i mod k =? 0) eqn:E; [lia|done].
  - intros -> ->. unfold ask_fidelity. rewrite Hk0.
    by eexists.
Qed.

Lemma fidelity_schedule_witness :
  (ask_fidelity 16 8 = Ok lit_1_0 <-> 16 mod 8 = 0)
  /\ (16 mod 8 <> 0 -> ask_fidelity 16 8 = Ok lit_0_1).
Proof.
  pose proof (fidelity_schedule Fixture.scenario
                (init (Fixture.mkEcho lit_0_0)) 16 8) as Hs.
  destruct Hs as (Hhi & Hlo & _); [lia | lia |].
  split; [exact Hhi | exact Hlo].
Defined.

(** ** Invariants of the running loop *)

Section Invariants.

Context {P : Type} `{Planner P}.
Variable LOOKUP : Table.
Variable cfg : Config.

(** What a pass that got through its [for] loop leaves in the ledger. *)
Lemma loop_body_ledger (st : State P) :
  exists done : list Observation,
    campaign (state_of (loop_body LOOKUP cfg st)) = campaign st ++ done
    /\ Forall (committed LOOKUP) done
    /\ iter_ (state_of (loop_body LOOKUP cfg st))
       = iter_ st + Z.of_nat (length done)
    /\ forall samples st1,
         requested cfg st = (Ok samples, st1) ->
         (exists e st2, for_samples LOOKUP samples st1 = (st2, Some e))
         \/ done.*1 = samples.
Proof.
  unfold loop_body.
  destruct (requested cfg st) as [[samples|e] st1] eqn:Hreq;
    apply requested_frame in Hreq as (_ & Hc & Hi & _); simpl.
  - destruct (for_samples LOOKUP samples st1) as [st2 oe] eqn:Hfor.
    destruct (for_samples_ledger LOOKUP samples st1 st2 oe Hfor)
      as (done & Hc2 & Hall & _ & Hi2 & Hnone).
    exists done. destruct oe as [e|]; simpl.
    + rewrite Hc2, Hc, Hi2, Hi. repeat split; auto.
      intros ? ? [= <- <-]. left. by exists e, st2.
    + pose proof (convergence_check_frame LOOKUP cfg samples st2)
        as (_ & Hc3 & Hi3 & _).
      rewrite Hc3, Hi3, Hc2, Hc, Hi2, Hi. repeat split; auto.
      intros ? ? [= <- <-]. right. by apply Hnone.
  - exists []. rewrite app_nil_r, Hc, Hi. repeat split; auto.
    + simpl. lia.
    + intros ? ? [=].
Qed.

Lemma loop_body_measurement (st : State P) :
  measurement st = snd <$> last (campaign st) ->
  measurement (state_of (loop_body LOOKUP cfg st))
  = snd <$> last (campaign (state_of (loop_body LOOKUP cfg st))).
Proof.
  intros Hinv. unfold loop_body.
  destruct (requested cfg st) as [[samples|e] st1] eqn:Hreq;
    apply requested_frame in Hreq as (_ & Hc & _ & Hm & _); simpl.
  - destruct (for_samples LOOKUP samples st1) as [st2 oe] eqn:Hfor.
    apply for_samples_measurement in Hfor; [|congruence].
    destruct oe as [e|]; simpl; [done|].
    pose proof (convergence_check_frame LOOKUP cfg samples st2)
      as (_ & Hc3 & _ & Hm3).
    congruence.
  - congruence.
Qed.

(** In every state the loop reaches: the ledger holds the samples of the
    batches so far, in order, each with the oracle's measurement of it;
    [iter_] counts them; [measurement] is bound to the measurement of the
    last one; and [COST] is still the initial [0.]. *)
Lemma reachable_invariant batches (st : State P) :
  reachable LOOKUP cfg batches st ->
  (campaign st).*1 = concat batches
  /\ Forall (committed LOOKUP) (campaign st)
  /\ iter_ st = num_obs st
  /\ measurement st = snd <$> last (campaign st)
  /\ COST st = lit_0_0.
Proof.
  induction 1 as [p|batches st samples st1 st' Hreach IH Hlt Hreq Hbody].
  - repeat split; auto.
  - destruct IH as (Hcat & Hall & Hit & Hm & Hcost).
    pose proof (loop_body_ledger st) as (done & Hc & Hdone & Hi & Hsamples).
    pose proof (loop_body_measurement st Hm) as Hm'.
    pose proof (loop_body_COST LOOKUP cfg st) as Hcost'.
    rewrite Hbody in *. simpl in *.
    destruct (Hsamples samples st1 Hreq) as [(e & st2 & Hfor)|Hfst].
    { unfold loop_body in Hbody. rewrite Hreq, Hfor in Hbody. done. }
    repeat split.
    + rewrite Hc, fmap_app, concat_app, Hcat, Hfst. simpl.
      by rewrite app_nil_r.
    + rewrite Hc. by apply Forall_app.
    + unfold num_obs in *. rewrite Hi, Hc, length_app. lia.
    + exact Hm'.
    + congruence.
Qed.

(** [COST] never changes, so a loop that is running keeps running: the
    [while] condition cannot become false. *)
Lemma run_budget_unreachable fuel : forall (st st' : State P),
  ltb (COST st) (of_Z (COST_BUDGET cfg)) = true ->
  run LOOKUP cfg fuel st <> BudgetExhausted st'.
Proof.
  induction fuel as [|n IH]; simpl; intros st st' Hlt; [done|].
  rewrite Hlt. pose proof (loop_body_COST LOOKUP cfg st) as Hc.
  destruct (loop_body LOOKUP cfg st) as [st1|st1|e st1]; simpl in *;
    [|done..].
  apply IH. by rewrite Hc.
Qed.

(** An exception leaves in the ledger what was there before the pass and
    the observations of the samples measured before the raise, each
    complete; [COST] is what it was. *)
Lemma loop_body_abort_ledger (st : State P) e st' :
  loop_body LOOKUP cfg st = Abort e st' ->
  exists done : list Observation,
    campaign st' = campaign st ++ done
    /\ Forall (committed LOOKUP) done
    /\ iter_ st' = iter_ st + Z.of_nat (length done)
    /\ COST st' = COST st.
Proof.
  intros Hbody.
  pose proof (loop_body_ledger st) as (done & Hc & Hdone & Hi & _).
  pose proof (loop_body_COST LOOKUP cfg st) as Hcost.
  rewrite Hbody in *. simpl in *. by exists done.
Qed.

(** However the cell ends, and after any number of passes, every entry of
    the ledger is a complete observation, and [COST] is the initial [0.]
    whatever the ledger holds. *)
Lemma run_ledger fuel : forall batches (st : State P),
  reachable LOOKUP cfg batches st ->
  Forall (committed LOOKUP) (campaign (final (run LOOKUP cfg fuel st)))
  /\ COST (final (run LOOKUP cfg fuel st)) = lit_0_0.
Proof.
  induction fuel as [|n IH]; simpl; intros batches st Hreach;
    pose proof (reachable_invariant batches st Hreach)
      as (_ & Hall & _ & _ & Hcost); [done|].
  destruct (ltb (COST st) _) eqn:Hlt; [|done].
  pose proof (loop_body_ledger st) as (done & Hc & Hdone & _).
  pose proof (loop_body_COST LOOKUP cfg st) as Hcost'.
  destruct (loop_body LOOKUP cfg st) as [st'|st'|e st'] eqn:Hbody;
    simpl in *.
  - destruct (requested cfg st) as [[samples|e] st1] eqn:Hreq.
    + apply (IH (batches ++ [samples])).
      by apply (reach_pass LOOKUP cfg batches st samples st1 st').
    + unfold loop_body in Hbody. by rewrite Hreq in Hbody.
  - rewrite Hc. split; [by apply Forall_app | congruence].
  - rewrite Hc. split; [by apply Forall_app | congruence].
Qed.

End Invariants.

(** ** The convergence check *)

Section Convergence.

Context {P : Type} `{Planner P}.
Variable LOOKUP : Table.
Variable cfg : Config.

(** A [for] loop that got through a non-empty batch leaves [measurement]
    bound to the measurement of the batch's last sample, which is also the
    last entry of the ledger. *)
Lemma for_samples_last samples : forall (st st' : State P),
  for_samples LOOKUP samples st = (st', None) ->
  samples <> [] ->
  exists sample m,
    last samples = Some sample
    /\ measure LOOKUP sample (s sample) = Ok m
    /\ measurement st' = Some m
    /\ last (campaign st') = Some (sample, m).
Proof.
  induction samples as [|x xs IH]; simpl; intros st st' Hfor Hne; [done|].
  destruct (measure LOOKUP x (s x)) as [m|e] eqn:Hm; [|done].
  destruct xs as [|y ys].
  - simpl in Hfor. injection Hfor as <-. exists x, m. simpl.
    by rewrite last_snoc.
  - destruct (IH _ _ Hfor) as (sample & m' & Hlast & ?); [done|].
    exists sample, m'. split; [|done]. exact Hlast.
Qed.

(** C7: in the steady state ([num_obs > NUM_INIT_DESIGN]) the convergence
    check leaves the observation ledger, [COST], [iter_] and [measurement]
    as they were,
    whatever the planner and the oracle answer; when the greedy
    recommendation is measured, the measurement is appended to
    [target_rec_measurements] and nothing else is recorded. *)
Theorem greedy_measurement_frame (st : State P) samples :
  NUM_INIT_DESIGN cfg < num_obs st ->
  campaign (state_of (convergence_check LOOKUP cfg samples st)) = campaign st
  /\ COST (state_of (convergence_check LOOKUP cfg samples st)) = COST st
  /\ iter_ (state_of (convergence_check LOOKUP cfg samples st)) = iter_ st
  /\ measurement (state_of (convergence_check LOOKUP cfg samples st))
     = measurement st
  /\ forall rec_sample rest p m,
       recommend_target_fidelity 1 (planner st) = (Ok (rec_sample :: rest), p) ->
       measure LOOKUP rec_sample (s rec_sample) = Ok m ->
       target_rec_measurements
         (state_of (convergence_check LOOKUP cfg samples st))
       = target_rec_measurements st ++ [m].
Proof.
  intros Hsteady.
  pose proof (convergence_check_frame LOOKUP cfg samples st)
    as (Hcost & Hcamp & Hiter & Hmeas).
  repeat split; auto.
  intros rec_sample rest p m Hrec Hm.
  unfold convergence_check.
  assert ((num_obs st >? NUM_INIT_DESIGN cfg) = true) as -> by lia.
  unfold greedy_check. rewrite Hrec, Hm.
  by destruct (eqb m _).
Qed.

(** C3: a pass whose greedy target-fidelity recommendation measures equal
    ([==]) to [min_hse06_bandgap] ends the loop by [break], whatever the
    budget is, as long as the [while] condition let the pass start. *)
Theorem converges_on_known_optimum
    (st : State P) fuel samples st1 st2 rec_sample rest p m :
  ltb (COST st) (of_Z (COST_BUDGET cfg)) = true ->
  requested cfg st = (Ok samples, st1) ->
  for_samples LOOKUP samples st1 = (st2, None) ->
  NUM_INIT_DESIGN cfg < num_obs st2 ->
  recommend_target_fidelity 1 (planner st2) = (Ok (rec_sample :: rest), p) ->
  measure LOOKUP rec_sample (s rec_sample) = Ok m ->
  eqb m (min_hse06_bandgap cfg) = true ->
  run LOOKUP cfg (S fuel) st
  = Converged (append_target_rec m (set_planner p st2)).
Proof.
  intros Hlt Hreq Hfor Hsteady Hrec Hm Heq. simpl. rewrite Hlt.
  unfold loop_body. rewrite Hreq, Hfor.
  unfold convergence_check.
  assert ((num_obs st2 >? NUM_INIT_DESIGN cfg) = true) as -> by lia.
  unfold greedy_check. by rewrite Hrec, Hm, Heq.
Qed.

(** The [else] branch on a non-empty batch of any size: a pass that
    recorded the batch and
    whose observation count does not exceed [NUM_INIT_DESIGN] asks for no
    greedy recommendation (the planner is left as [recommend] left it),
    appends the measurement of the batch's last sample to
    [target_rec_measurements], and breaks exactly when that measurement
    equals [min_hse06_bandgap] and the batch's first sample has fidelity
    1.0; so a batch of one sample of another fidelity never ends the loop.
    The greedy branch is taken exactly when the count exceeds
    [NUM_INIT_DESIGN]. *)
Theorem init_design_check_on_batch (st : State P) samples st1 st2 :
  requested cfg st = (Ok samples, st1) ->
  for_samples LOOKUP samples st1 = (st2, None) ->
  samples <> [] ->
  (num_obs st2 <= NUM_INIT_DESIGN cfg ->
   exists first sample m,
     head samples = Some first
     /\ last samples = Some sample
     /\ last (campaign st2) = Some (sample, m)
     /\ measure LOOKUP sample (s sample) = Ok m
     /\ loop_body LOOKUP cfg st
        = (if eqb m (min_hse06_bandgap cfg) && eqb (s first) lit_1_0
           then Break (append_target_rec m st2)
           else Continue (append_target_rec m st2))
     /\ planner (state_of (loop_body LOOKUP cfg st)) = planner st1
     /\ (samples = [sample] -> eqb (s sample) lit_1_0 = false ->
         loop_body LOOKUP cfg st = Continue (append_target_rec m st2)))
  /\ (NUM_INIT_DESIGN cfg < num_obs st2 ->
      loop_body LOOKUP cfg st = greedy_check LOOKUP cfg st2).
Proof.
  intros Hreq Hfor Hne. unfold loop_body. rewrite Hreq, Hfor.
  unfold convergence_check. split; intros Hcount.
  - assert ((num_obs st2 >? NUM_INIT_DESIGN cfg) = false) as -> by lia.
    destruct (for_samples_last samples st1 st2 Hfor Hne)
      as (sample & m & Hlast & Hm & Hbound & Hledger).
    destruct samples as [|first rest] eqn:Hs; [done|].
    exists first, sample, m.
    apply for_samples_frame in Hfor as (_ & _ & Hpl).
    assert (init_design_check cfg (first :: rest) st2
            = (if eqb m (min_hse06_bandgap cfg) && eqb (s first) lit_1_0
               then Break (append_target_rec m st2)
               else Continue (append_target_rec m st2))) as Hcheck.
    { unfold init_design_check. rewrite Hbound.
      destruct (eqb m _); simpl; [|done]. by destruct (eqb (s first) _). }
    rewrite Hcheck. repeat split; auto.
    + by destruct (_ && _).
    + intros [= -> ->] Hlow. rewrite Hlow.
      by rewrite andb_false_r.
  - by assert ((num_obs st2 >? NUM_INIT_DESIGN cfg) = true) as -> by lia.
Qed.

(** C6: with the one-sample batch the notebook asks the planner for
    ([batch_size=1]), a pass whose observation count, the sample just
    recorded included, does not exceed [NUM_INIT_DESIGN] makes no greedy
    target-fidelity recommendation (the planner is left as [recommend] left
    it): it appends the measurement just recorded to
    [target_rec_measurements] and ends the loop exactly when that
    measurement equals [min_hse06_bandgap] and the sample's fidelity is 1.0,
    so a sample of another fidelity never ends the loop in this phase.  The
    greedy branch is taken exactly when the count exceeds
    [NUM_INIT_DESIGN]. *)
Theorem init_design_phase_single_sample
    (st st1 : State P) (sample : Sample) (m : float) :
  requested cfg st = (Ok [sample], st1) ->
  measure LOOKUP sample (s sample) = Ok m ->
  (num_obs (record_sample sample m st1) <= NUM_INIT_DESIGN cfg ->
   loop_body LOOKUP cfg st
   = (if eqb m (min_hse06_bandgap cfg) && eqb (s sample) lit_1_0
      then Break (append_target_rec m (record_sample sample m st1))
      else Continue (append_target_rec m (record_sample sample m st1)))
   /\ planner (state_of (loop_body LOOKUP cfg st)) = planner st1
   /\ last (campaign (state_of (loop_body LOOKUP cfg st))) = Some (sample, m)
   /\ target_rec_measurements (state_of (loop_body LOOKUP cfg st))
      = target_rec_measurements st ++ [m]
   /\ (eqb (s sample) lit_1_0 = false ->
       loop_body LOOKUP cfg st
       = Continue (append_target_rec m (record_sample sample m st1))))
  /\ (NUM_INIT_DESIGN cfg < num_obs (record_sample sample m st1) ->
      loop_body LOOKUP cfg st
      = greedy_check LOOKUP cfg (record_sample sample m st1)).
Proof.
  intros Hreq Hm.
  pose proof (requested_frame cfg st _ _ Hreq) as (_ & _ & _ & _ & Ht1).
  unfold loop_body. rewrite Hreq. simpl. rewrite Hm.
  unfold convergence_check. split; intros Hcount.
  - assert ((num_obs (record_sample sample m st1) >? NUM_INIT_DESIGN cfg)
            = false) as -> by lia.
    unfold init_design_check. simpl.
    destruct (eqb m (min_hse06_bandgap cfg)); simpl.
    + destruct (eqb (s sample) lit_1_0); simpl;
        rewrite ?last_snoc, ?Ht1; repeat split; auto; done.
    + rewrite last_snoc, Ht1. repeat split; auto.
  - by assert ((num_obs (record_sample sample m st1) >? NUM_INIT_DESIGN cfg)
               = true) as -> by lia.
Qed.

End Convergence.

(** ** The unguarded read of [measurement] *)

Section StaleMeasurement.

Context {P : Type} `{Planner P}.
Variable LOOKUP : Table.
Variable cfg : Config.

(** With a non-negative [NUM_INIT_DESIGN], a pass that ends without
    [break] or exception leaves at least one observation: the first pass
    with an empty batch cannot pass the read of the unbound name. *)
Lemma continued_pass_has_observation (st st' : State P) :
  0 <= NUM_INIT_DESIGN cfg ->
  measurement st = snd <$> last (campaign st) ->
  loop_body LOOKUP cfg st = Continue st' ->
  campaign st' <> [].
Proof.
  intros Hn Hinv Hbody.
  pose proof (loop_body_ledger LOOKUP cfg st) as (done & Hc & _ & _ & Hs).
  rewrite Hbody in Hc. simpl in Hc. rewrite Hc.
  destruct (campaign st) as [|o os] eqn:Hcamp; [|done].
  simpl in *. intros ->.
  unfold loop_body in Hbody.
  destruct (requested cfg st) as [[samples|e] st1] eqn:Hreq; [|done].
  destruct (Hs samples st1 eq_refl) as [(e & st2 & Hfor)|Hfst].
  { by rewrite Hfor in Hbody. }
  simpl in Hfst. subst samples. cbn [for_samples] in Hbody.
  apply requested_frame in Hreq as (_ & Hc1 & _ & Hm1 & _).
  assert (num_obs st1 = 0) as Hn0 by (unfold num_obs; by rewrite Hc1, Hcamp).
  assert ((0 >? NUM_INIT_DESIGN cfg) = false) as Hgt by lia.
  unfold convergence_check in Hbody. rewrite Hn0, Hgt in Hbody.
  unfold init_design_check in Hbody.
  by rewrite Hm1, Hinv in Hbody.
Qed.

(** C9: a pass that starts within the initial-design count and gets an
    empty batch from the planner reads [measurement] in the [else] branch
    although its [for] loop bound nothing.  On the first pass the name is
    unbound and the read raises; on a later pass it still holds the
    measurement of the last sample of the last non-empty batch, which is
    appended to [target_rec_measurements] once more (and, when it equals
    [min_hse06_bandgap], the pass then fails on [samples[0]]). *)
Theorem empty_batch_reads_stale_measurement batches (st st1 : State P) :
  reachable LOOKUP cfg batches st ->
  requested cfg st = (Ok [], st1) ->
  num_obs st <= NUM_INIT_DESIGN cfg ->
  (batches = [] ->
   measurement st1 = None
   /\ loop_body LOOKUP cfg st = Abort (NameError "measurement") st1)
  /\ (batches <> [] ->
      exists sample m,
        last (concat batches) = Some sample
        /\ measure LOOKUP sample (s sample) = Ok m
        /\ measurement st1 = Some m
        /\ loop_body LOOKUP cfg st
           = if eqb m (min_hse06_bandgap cfg)
             then Abort IndexError (append_target_rec m st1)
             else Continue (append_target_rec m st1)).
Proof.
  intros Hreach Hreq Hcount.
  pose proof (reachable_invariant LOOKUP cfg batches st Hreach)
    as (Hcat & Hall & _ & Hm & _).
  pose proof (requested_frame cfg st _ _ Hreq) as (_ & Hc1 & _ & Hm1 & _).
  assert (loop_body LOOKUP cfg st = init_design_check cfg [] st1) as Hbody.
  { unfold loop_body. rewrite Hreq. simpl.
    unfold convergence_check, num_obs in *. rewrite Hc1.
    by assert ((Z.of_nat (length (campaign st)) >? NUM_INIT_DESIGN cfg)
               = false) as -> by lia. }
  rewrite Hbody. unfold init_design_check. rewrite Hm1, Hm. split.
  - intros ->. simpl in Hcat. apply fmap_nil_inv in Hcat.
    by rewrite Hcat.
  - intros Hne.
    assert (campaign st <> []) as Hcamp.
    { destruct Hreach as [p|bs st0 samples st0' st' Hr Hlt Hrq Hb]; [done|].
      apply (continued_pass_has_observation st0 st'); [|by
        apply (reachable_invariant LOOKUP cfg bs st0)|done].
      unfold num_obs in Hcount. lia. }
    apply last_is_Some in Hcamp as [[sample m] Hlast].
    exists sample, m. rewrite Hlast. simpl.
    split; [by rewrite <- Hcat, fmap_last, Hlast|].
    split; [|by destruct (eqb m _)].
    apply last_Some_elem_of in Hlast.
    rewrite Forall_forall in Hall. by apply Hall in Hlast.
Qed.

End StaleMeasurement.

(** ** Configuration *)

Section Configuration.

Context {P : Type} `{Planner P}.
Variable LOOKUP : Table.
Variable cfg : Config.

(** C8, as the code has it: cell 4 binds the constants and checks
    nothing.  A budget that is not positive makes the [while] condition
    false at once: the cell ends normally after no pass, with no
    exception.  A cadence of 0 is found by the first pass only, as the
    [ZeroDivisionError] of [iter_ % NUM_CHEAP]; any other cadence, also a
    negative one, yields a fidelity. *)
Theorem configuration_is_not_checked (p : P) (fuel : nat) :
  (COST_BUDGET cfg <= 0 ->
   run LOOKUP cfg (S fuel) (init p) = BudgetExhausted (init p))
  /\ (0 < COST_BUDGET cfg -> NUM_CHEAP cfg = 0 ->
      run LOOKUP cfg (S fuel) (init p) = Aborted ZeroDivisionError (init p))
  /\ (NUM_CHEAP cfg <> 0 ->
      forall i, exists fid, ask_fidelity i (NUM_CHEAP cfg) = Ok fid).
Proof.
  split; [|split].
  - intros Hb. simpl.
    destruct (Qle_bool (inject_Z (COST_BUDGET cfg)) 0) eqn:E; [done|].
    exfalso. apply not_true_iff_false in E. apply E.
    apply Qle_bool_iff. unfold Qle. simpl. lia.
  - intros Hb Hk. simpl.
    destruct (Qle_bool (inject_Z (COST_BUDGET cfg)) 0) eqn:E.
    + apply Qle_bool_iff in E. unfold Qle in E. simpl in E. lia.
    + simpl. unfold loop_body, requested, ask_fidelity. simpl.
      by rewrite Hk.
  - intros Hk i. unfold ask_fidelity.
    assert ((NUM_CHEAP cfg =? 0) = false) as -> by lia.
    by eexists.
Qed.

End Configuration.

(** ** The notebook's scenario, run *)

Section Scenarios.

Import Fixture.

Lemma measure_ma_hi :
  measure table (ma_pb_i lit_1_0) lit_1_0 = Ok (Fin (3 # 2)).
Proof. vm_compute. reflexivity. Qed.

Lemma measure_ma_lo :
  measure table (ma_pb_i lit_0_1) lit_0_1 = Ok (Fin (5 # 4)).
Proof. vm_compute. reflexivity. Qed.

Lemma not_optimum_hi : eqb (Fin (3 # 2)) (min_hse06_bandgap scenario) = false.
Proof. vm_compute. reflexivity. Qed.

Lemma not_optimum_lo : eqb (Fin (5 # 4)) (min_hse06_bandgap scenario) = false.
Proof. vm_compute. reflexivity. Qed.

(** With the echo planner no pass ends the loop. *)
Lemma echo_pass_continues (st : State Echo) :
  exists st', loop_body table scenario st = Continue st'.
Proof.
  unfold loop_body, requested, ask_fidelity.
  change (NUM_CHEAP scenario =? 0) with false. cbv iota.
  destruct (iter_ st mod NUM_CHEAP scenario =? 0);
    cbn -[measure table];
    rewrite ?measure_ma_hi, ?measure_ma_lo; cbn -[measure table];
    unfold convergence_check; destruct (_ >? _).
  - unfold greedy_check. cbn -[measure table eqb min_hse06_bandgap].
    rewrite measure_ma_hi, not_optimum_hi. by eexists.
  - unfold init_design_check. cbn -[eqb min_hse06_bandgap].
    rewrite not_optimum_hi. by eexists.
  - unfold greedy_check. cbn -[measure table eqb min_hse06_bandgap].
    rewrite measure_ma_hi, not_optimum_hi. by eexists.
  - unfold init_design_check. cbn -[eqb min_hse06_bandgap].
    rewrite not_optimum_lo. by eexists.
Qed.

Lemma echo_runs_on fuel : forall st : State Echo,
  COST st = lit_0_0 ->
  exists st', run table scenario fuel st = OutOfFuel st'.
Proof.
  induction fuel as [|n IH]; simpl; intros st Hcost; [by eexists|].
  rewrite Hcost. change (ltb lit_0_0 (of_Z (COST_BUDGET scenario))) with true.
  cbv iota. destruct (echo_pass_continues st) as [st' Hpass].
  rewrite Hpass. apply IH.
  pose proof (loop_body_COST table scenario st) as Hc.
  rewrite Hpass in Hc. simpl in Hc. congruence.
Qed.

(** C1, on the code: in the scenario of the notebook (budget 50, cadence
    8, ten initial-design points) the first eight passes record one
    observation each, the first at fidelity 1.0 and the next seven at 0.1,
    and [COST] is still [0.] after them, not 17: no statement of the loop
    adds a cost to it. *)
Theorem scenario_cost_stays_zero :
  exists st8,
    run table scenario 8 (init (mkEcho lit_0_0)) = OutOfFuel st8
    /\ (fun o : Observation => s o.1) <$> campaign st8
       = lit_1_0 :: replicate 7 lit_0_1
    /\ iter_ st8 = 8
    /\ COST st8 = lit_0_0
    /\ eqb (COST st8) (of_Z 17) = false.
Proof. eexists. vm_compute. repeat split. Qed.

(** C2, on the code: in the same scenario the loop never ends.  The
    optimum 0.8 is not in the table at the planner's compound, and [COST]
    stays below the budget, so every number of passes leaves the loop
    running. *)
Theorem scenario_never_terminates (fuel : nat) :
  exists st, run table scenario fuel (init (mkEcho lit_0_0)) = OutOfFuel st.
Proof. by apply echo_runs_on. Qed.

(** C5, on the code: the first pass records a fidelity-1.0 observation,
    the second fails in the oracle on a combination the table does not
    hold.  The ledger keeps the one complete observation, and [COST] is
    [0.]: the observation was recorded without any cost. *)
Theorem oracle_failure_keeps_unpaid_observation :
  exists st,
    run table scenario 2
      (init (replay [Ok [ma_pb_i lit_1_0]; Ok [unseen]] (Raise PlannerError)))
    = Aborted (KeyError "Ea") st
    /\ campaign st = [(ma_pb_i lit_1_0, Fin (3 # 2))]
    /\ iter_ st = 1
    /\ COST st = lit_0_0.
Proof. eexists. vm_compute. repeat split. Qed.

End Scenarios.

(** ** Concrete runs: instances and refutations *)

Section Instances.

Import Fixture.

(** Outside the notebook's configuration, where a planner would return a
    batch of two: the first sample
    is at fidelity 1.0, the last one, just recorded, is at fidelity 0.1 and
    its GGA measurement happens to equal the optimum.  The pass is within
    the initial-design count (2 <= 10), and it breaks: the fidelity tested
    is that of [samples[0]], not that of the sample whose measurement is
    compared.  With [batch_size=1] the two are the same sample. *)
Lemma low_fidelity_sample_ends_init_design :
  exists st',
    loop_body table scenario
      (init (replay [Ok [ma_pb_i lit_1_0; fa_sn_br lit_0_1]]
               (Raise PlannerError)))
    = Break st'
    /\ num_obs st' <= NUM_INIT_DESIGN scenario
    /\ last (campaign st') = Some (fa_sn_br lit_0_1, lit_0_8)
    /\ eqb (s (fa_sn_br lit_0_1)) lit_1_0 = false
    /\ last (target_rec_measurements st') = Some lit_0_8.
Proof. eexists. vm_compute. repeat split; discriminate. Qed.

(** Counterexample to C8 as the spec words it: with a budget of -1 the cell ends
    normally without a single pass and without any exception, and with a
    cadence of -8 the first pass runs and records its observation. *)
Lemma invalid_configuration_raises_nothing :
  run table (mkConfig (-1) 10 8 lit_0_8) 1 (init (mkEcho lit_0_0))
  = BudgetExhausted (init (mkEcho lit_0_0))
  /\ exists st,
       run table (mkConfig 50 10 (-8) lit_0_8) 1 (init (mkEcho lit_0_0))
       = OutOfFuel st
       /\ campaign st = [(ma_pb_i lit_1_0, Fin (3 # 2))].
Proof. split; [|eexists]; vm_compute; repeat split. Qed.

Lemma configuration_is_not_checked_witness :
  run table (mkConfig (-1) 10 8 lit_0_8) 1 (init (mkEcho lit_0_0))
  = BudgetExhausted (init (mkEcho lit_0_0))
  /\ run table (mkConfig 50 10 0 lit_0_8) 1 (init (mkEcho lit_0_0))
     = Aborted ZeroDivisionError (init (mkEcho lit_0_0)).
Proof.
  split.
  - apply (proj1 (configuration_is_not_checked
                    table (mkConfig (-1) 10 8 lit_0_8) (mkEcho lit_0_0) 0)).
    simpl. lia.
  - apply (proj1 (proj2 (configuration_is_not_checked
                    table (mkConfig 50 10 0 lit_0_8) (mkEcho lit_0_0) 0)));
      simpl; [lia | reflexivity].
Defined.

(** A run that has left the initial design at once ([NUM_INIT_DESIGN] 0)
    and whose greedy recommendation Fa/Sn/Br measures 0.8. *)
Lemma converges_on_known_optimum_witness :
  let cfg := mkConfig 50 0 8 lit_0_8 in
  let st := init (replay [Ok [ma_pb_i lit_1_0]] (Ok [fa_sn_br lit_1_0])) in
  let st2 :=
    record_sample (ma_pb_i lit_1_0) (Fin (3 # 2)) (requested cfg st).2 in
  run table cfg 1 st
  = Converged (append_target_rec lit_0_8 (set_planner (planner st2) st2)).
Proof.
  intros cfg st st2.
  apply (converges_on_known_optimum table cfg st 0
           [ma_pb_i lit_1_0] (requested cfg st).2 st2
           (fa_sn_br lit_1_0) [] (planner st2) lit_0_8);
    vm_compute; reflexivity.
Defined.

Lemma greedy_measurement_frame_witness :
  let cfg := mkConfig 50 0 8 lit_0_8 in
  let st :=
    record_sample (ma_pb_i lit_1_0) (Fin (3 # 2))
      (init (replay [] (Ok [fa_sn_br lit_1_0]))) in
  campaign (state_of (convergence_check table cfg [] st)) = campaign st
  /\ COST (state_of (convergence_check table cfg [] st)) = COST st
  /\ target_rec_measurements (state_of (convergence_check table cfg [] st))
     = target_rec_measurements st ++ [lit_0_8].
Proof.
  intros cfg st.
  destruct (greedy_measurement_frame table cfg st [])
    as (Hc & Hcost & _ & _ & Ht).
  - vm_compute. reflexivity.
  - split; [exact Hc|]. split; [exact Hcost|].
    apply (Ht (fa_sn_br lit_1_0) [] (planner st)); vm_compute; reflexivity.
Defined.

(** A first pass that records one fidelity-0.1 sample. *)
Lemma init_design_phase_single_sample_witness :
  let st := init (replay [Ok [ma_pb_i lit_0_1]] (Raise PlannerError)) in
  let st1 := (requested scenario st).2 in
  loop_body table scenario st
  = Continue (append_target_rec (Fin (5 # 4))
                (record_sample (ma_pb_i lit_0_1) (Fin (5 # 4)) st1)).
Proof.
  intros st st1.
  destruct (init_design_phase_single_sample table scenario st st1
              (ma_pb_i lit_0_1) (Fin (5 # 4))) as [Hinit _].
  - vm_compute. reflexivity.
  - vm_compute. reflexivity.
  - destruct Hinit as (_ & _ & _ & _ & Hlow).
    + vm_compute. discriminate.
    + apply Hlow. vm_compute. reflexivity.
Defined.

(** The second pass of a run whose first batch was one sample and whose
    second batch is empty. *)
Lemma empty_batch_reads_stale_measurement_witness :
  let st0 :=
    init (replay [Ok [ma_pb_i lit_1_0]; Ok []] (Raise PlannerError)) in
  let st := state_of (loop_body table scenario st0) in
  let st1 := (requested scenario st).2 in
  exists sample m,
    last (concat [[ma_pb_i lit_1_0]]) = Some sample
    /\ measure table sample (s sample) = Ok m
    /\ measurement st1 = Some m
    /\ loop_body table scenario st
       = if eqb m (min_hse06_bandgap scenario)
         then Abort IndexError (append_target_rec m st1)
         else Continue (append_target_rec m st1).
Proof.
  intros st0 st st1.
  assert (reachable table scenario [[ma_pb_i lit_1_0]] st) as Hreach.
  { apply (reach_pass table scenario [] st0 [ma_pb_i lit_1_0]
             (requested scenario st0).2 st (reach_init table scenario _));
      vm_compute; reflexivity. }
  destruct (empty_batch_reads_stale_measurement table scenario
              [[ma_pb_i lit_1_0]] st st1 Hreach) as [_ Hlater].
  - vm_compute. reflexivity.
  - vm_compute. discriminate.
  - apply Hlater. discriminate.
Defined.

End Instances.

(** ** More on the oracle: lookups, errors, NaN, letter case *)

Section OracleFacts.

Variable LOOKUP : Table.

Lemma lookup_bandgaps_Ok params key l :
  lookup_bandgaps LOOKUP params key = Ok l <->
  exists d1 d2 d3,
    LOOKUP !! capitalize (organic params) = Some d1
    /\ d1 !! cation params = Some d2
    /\ d2 !! anion params = Some d3
    /\ d3 !! key = Some l.
Proof.
  unfold lookup_bandgaps, getitem. split.
  - destruct (LOOKUP !! _) as [d1|] eqn:E1; simpl; [|done].
    destruct (d1 !! _) as [d2|] eqn:E2; simpl; [|done].
    destruct (d2 !! _) as [d3|] eqn:E3; simpl; [|done].
    destruct (d3 !! key) as [l'|] eqn:E4; simpl; [|done].
    intros [= ->]. by exists d1, d2, d3.
  - intros (d1 & d2 & d3 & H1 & H2 & H3 & H4).
    rewrite H1. simpl. rewrite H2. simpl. rewrite H3. simpl. by rewrite H4.
Qed.

(** X1: [measure] returns [m] exactly when the fidelity is 1.0 or 0.1,
    the table holds the capitalised organic, then the cation, then the
    anion, then the bandgap field of that fidelity, and the array found
    there is not empty; [m] is then the running minimum of the array. *)
Theorem measure_returns_iff (params : Sample) (sf m : float) :
  measure LOOKUP params sf = Ok m <->
  exists key d1 d2 d3 x xs,
    ((eqb sf lit_1_0 = true /\ key = "bandgap_hse06"%string)
     \/ (eqb sf lit_1_0 = false /\ eqb sf lit_0_1 = true
         /\ key = "bandgap_gga"%string))
    /\ LOOKUP !! capitalize (organic params) = Some d1
    /\ d1 !! cation params = Some d2
    /\ d2 !! anion params = Some d3
    /\ d3 !! key = Some (x :: xs)
    /\ m = fold_left fmin xs x.
Proof.
  unfold measure. split.
  - destruct (eqb sf lit_1_0) eqn:Hhi; [|destruct (eqb sf lit_0_1) eqn:Hlo];
      [| |done];
      (destruct (lookup_bandgaps LOOKUP params _) as [l|e] eqn:Hl;
       simpl; [|done];
       apply lookup_bandgaps_Ok in Hl as (d1 & d2 & d3 & ? & ? & ? & ?);
       destruct l as [|x xs]; simpl; [done|]; intros [= <-];
       eexists _, d1, d2, d3, x, xs; split; [|done]).
    + by left.
    + by right.
  - intros (key & d1 & d2 & d3 & x & xs & Hkey & H1 & H2 & H3 & H4 & ->).
    assert (lookup_bandgaps LOOKUP params key = Ok (x :: xs)) as Hl.
    { apply lookup_bandgaps_Ok. by exists d1, d2, d3. }
    destruct Hkey as [[-> ->]|(-> & -> & ->)]; by rewrite Hl.
Qed.

(** X2: the exceptions of [measure].  At a fidelity other than 1.0 and 0.1
    it is the unbound [measurement], and the table is not consulted;
    otherwise it is the [KeyError] of the first key missing on the way
    (the capitalised organic, not the organic as given; then the cation,
    the anion, the bandgap field), or the [ValueError] of [np.amin] on an
    empty array.  Nothing else is ever raised. *)
Theorem measure_raises_only (params : Sample) (sf : float) (e : exn) :
  measure LOOKUP params sf = Raise e ->
  (e = UnboundLocalError "measurement"
   /\ eqb sf lit_1_0 = false /\ eqb sf lit_0_1 = false)
  \/ ((eqb sf lit_1_0 = true \/ eqb sf lit_0_1 = true)
      /\ exists key,
          key = (if eqb sf lit_1_0 then "bandgap_hse06" else "bandgap_gga")%string
          /\ ((e = KeyError (capitalize (organic params))
               /\ LOOKUP !! capitalize (organic params) = None)
              \/ (exists d1,
                    LOOKUP !! capitalize (organic params) = Some d1
                    /\ e = KeyError (cation params)
                    /\ d1 !! cation params = None)
              \/ (exists d1 d2,
                    LOOKUP !! capitalize (organic params) = Some d1
                    /\ d1 !! cation params = Some d2
                    /\ e = KeyError (anion params)
                    /\ d2 !! anion params = None)
              \/ (exists d1 d2 d3,
                    LOOKUP !! capitalize (organic params) = Some d1
                    /\ d1 !! cation params = Some d2
                    /\ d2 !! anion params = Some d3
                    /\ ((e = KeyError key /\ d3 !! key = None)
                        \/ (e = ValueError /\ d3 !! key = Some []))))).
Proof.
  unfold measure, lookup_bandgaps, getitem.
  destruct (eqb sf lit_1_0) eqn:Hhi; [|destruct (eqb sf lit_0_1) eqn:Hlo];
    [| |intros [= <-]; by left];
    (intros Hm; right; split; [auto|]; eexists; split; [done|];
     destruct (LOOKUP !! _) as [d1|] eqn:E1; simpl in Hm;
       [|left; by injection Hm as <-];
     destruct (d1 !! _) as [d2|] eqn:E2; simpl in Hm;
       [|right; left; exists d1; by injection Hm as <-];
     destruct (d2 !! _) as [d3|] eqn:E3; simpl in Hm;
       [|right; right; left; exists d1, d2; by injection Hm as <-];
     right; right; right; exists d1, d2, d3;
     split; [done|]; split; [done|]; split; [done|];
     destruct (d3 !! _) as [[|x xs]|] eqn:E4; simpl in Hm;
       [right; by injection Hm as <- | done | left; by injection Hm as <-]).
Qed.

Lemma fold_fmin_nan xs : forall a,
  is_nan (fold_left fmin xs a) = true
  <-> is_nan a = true \/ Exists (fun x => is_nan x = true) xs.
Proof.
  induction xs as [|y ys IH]; simpl; intros a.
  - rewrite Exists_nil. tauto.
  - rewrite IH, Exists_cons.
    assert (is_nan (fmin a y) = true <-> is_nan a = true \/ is_nan y = true)
      as Hstep.
    { unfold fmin. destruct (is_nan a) eqn:Ha; [tauto|].
      destruct (is_nan y) eqn:Hy; [tauto|].
      destruct (ltb y a); rewrite ?Ha, ?Hy; split; auto; intros [|]; done. }
    tauto.
Qed.

Lemma amin_nan l m :
  amin l = Ok m ->
  (is_nan m = true <-> Exists (fun x => is_nan x = true) l).
Proof.
  destruct l as [|x xs]; simpl; [done|]. intros [= <-].
  by rewrite fold_fmin_nan, Exists_cons.
Qed.

(** X3: a NaN among the bandgaps is not skipped by the minimum.  When
    [measure] returns, what it returns is NaN exactly when the array it
    read from the table (the HSE06 one at fidelity 1.0, the GGA one
    otherwise) has a NaN entry, wherever it stands. *)
Theorem measure_nan_iff (params : Sample) (sf m : float) (l : list float) :
  lookup_bandgaps LOOKUP params
    (if eqb sf lit_1_0 then "bandgap_hse06" else "bandgap_gga")%string = Ok l ->
  measure LOOKUP params sf = Ok m ->
  (is_nan m = true <-> Exists (fun x => is_nan x = true) l).
Proof.
  unfold measure. intros Hl.
  destruct (eqb sf lit_1_0); [|destruct (eqb sf lit_0_1); [|done]];
    rewrite Hl; simpl; apply amin_nan.
Qed.

Lemma upper_lower_ascii c : upper_ascii (lower_ascii c) = upper_ascii c.
Proof. by destruct c as [[] [] [] [] [] [] [] []]. Qed.

Lemma lower_lower_ascii c : lower_ascii (lower_ascii c) = lower_ascii c.
Proof. by destruct c as [[] [] [] [] [] [] [] []]. Qed.

Lemma lower_upper_ascii c : lower_ascii (upper_ascii c) = lower_ascii c.
Proof. by destruct c as [[] [] [] [] [] [] [] []]. Qed.

Lemma upper_upper_ascii c : upper_ascii (upper_ascii c) = upper_ascii c.
Proof. by destruct c as [[] [] [] [] [] [] [] []]. Qed.

Lemma lower_idem o : lower (lower o) = lower o.
Proof.
  induction o as [|c r IH]; simpl; [done|].
  by rewrite lower_lower_ascii, IH.
Qed.

Lemma capitalize_lower o : capitalize (lower o) = capitalize o.
Proof.
  destruct o as [|c r]; simpl; [done|].
  by rewrite upper_lower_ascii, lower_idem.
Qed.

Lemma capitalize_idem o : capitalize (capitalize o) = capitalize o.
Proof.
  destruct o as [|c r]; simpl; [done|].
  by rewrite upper_upper_ascii, lower_idem.
Qed.

(** X4: for an organic of ASCII characters the oracle does not see the
    letter case: the sample with its organic in lower case, or already
    capitalised, gets the very result (value or exception) of the sample as
    given, at every fidelity.  (The cation and the anion are looked up as
    given.) *)
Theorem measure_ignores_organic_case (params : Sample) (sf : float) :
  is_ascii (organic params) = true ->
  measure LOOKUP
    (mkSample (s params) (lower (organic params))
       (cation params) (anion params)) sf
  = measure LOOKUP params sf
  /\ measure LOOKUP
       (mkSample (s params) (capitalize (organic params))
          (cation params) (anion params)) sf
     = measure LOOKUP params sf.
Proof.
  intros _. unfold measure, lookup_bandgaps. simpl.
  by rewrite capitalize_lower, capitalize_idem.
Qed.

End OracleFacts.

Lemma measure_raises_only_witness :
  exists d1,
    Fixture.table !! "Ma"%string = Some d1 /\ d1 !! "Sn"%string = None.
Proof.
  destruct (measure_raises_only Fixture.table
              (mkSample lit_1_0 "ma" "Sn" "I") lit_1_0 (KeyError "Sn"))
    as [(Hu & _)|(_ & key & Hkey & Hcases)].
  - vm_compute. reflexivity.
  - discriminate Hu.
  - destruct Hcases as [(He & _)|[(d1 & H1 & _ & H2)|[Hc|Hc]]].
    + discriminate He.
    + exists d1. split; [exact H1 | exact H2].
    + destruct Hc as (d1 & d2 & _ & _ & He & _). discriminate He.
    + destruct Hc as (d1 & d2 & d3 & _ & _ & _ & [(He & _)|(He & _)]).
      * rewrite Hkey in He. discriminate He.
      * discriminate He.
Defined.

Lemma measure_ignores_organic_case_witness :
  measure Fixture.table (mkSample lit_1_0 (lower "MA") "Pb" "I") lit_1_0
  = measure Fixture.table (mkSample lit_1_0 "MA" "Pb" "I") lit_1_0.
Proof.
  apply (proj1 (measure_ignores_organic_case Fixture.table
                  (mkSample lit_1_0 "MA" "Pb" "I") lit_1_0 eq_refl)).
Defined.

Lemma measure_nan_iff_witness :
  is_nan NaN = true <-> Exists (fun x => is_nan x = true) [Fin 2; NaN; Fin 1].
Proof.
  apply (measure_nan_iff
           ({[ "Ma"%string :=
                 {[ "Pb"%string :=
                      {[ "I"%string :=
                           Fixture.bandgaps [Fin 2; NaN; Fin 1] [] ]} ]} ]})
           (Fixture.ma_pb_i lit_1_0) lit_1_0 NaN [Fin 2; NaN; Fin 1]);
    vm_compute; reflexivity.
Defined.

(** ** More on one pass: the batch, the trace, failures *)

Section PassFacts.

Context {P : Type} `{Planner P}.
Variable LOOKUP : Table.
Variable cfg : Config.

Lemma for_samples_app xs : forall ys (st : State P),
  for_samples LOOKUP (xs ++ ys) st
  = match for_samples LOOKUP xs st with
    | (st', Some e) => (st', Some e)
    | (st', None) => for_samples LOOKUP ys st'
    end.
Proof.
  induction xs as [|x xs IH]; simpl; intros ys st; [done|].
  destruct (measure LOOKUP x (s x)) as [m|e]; [apply IH|done].
Qed.

Lemma for_samples_all_measured xs : forall st : State P,
  Forall (fun x => exists m, measure LOOKUP x (s x) = Ok m) xs ->
  exists st', for_samples LOOKUP xs st = (st', None).
Proof.
  induction xs as [|x xs IH]; simpl; intros st Hall; [by eexists|].
  apply Forall_cons in Hall as [[m Hm] Hxs]. rewrite Hm. by apply IH.
Qed.

(** What the two branches of the convergence check do to
    [target_rec_measurements]: one entry more when the check ends normally,
    equal to the optimum when it ends by [break].  A greedy branch that
    raises adds nothing; the [else] branch may raise after its append (the
    [samples[0]] of an empty batch). *)
Lemma greedy_check_trace (st : State P) :
  match greedy_check LOOKUP cfg st with
  | Continue st' =>
      exists m, target_rec_measurements st' = target_rec_measurements st ++ [m]
  | Break st' =>
      exists m,
        target_rec_measurements st' = target_rec_measurements st ++ [m]
        /\ eqb m (min_hse06_bandgap cfg) = true
  | Abort _ st' => target_rec_measurements st' = target_rec_measurements st
  end.
Proof.
  unfold greedy_check.
  destruct (recommend_target_fidelity 1 (planner st)) as [[[|r rs]|e] p];
    simpl; try done.
  destruct (measure LOOKUP r (s r)) as [m|e]; simpl; [|done].
  destruct (eqb m _) eqn:E; simpl; eauto.
Qed.

Lemma init_design_check_trace samples (st : State P) :
  match init_design_check cfg samples st with
  | Continue st' =>
      exists m, target_rec_measurements st' = target_rec_measurements st ++ [m]
  | Break st' =>
      exists m,
        target_rec_measurements st' = target_rec_measurements st ++ [m]
        /\ eqb m (min_hse06_bandgap cfg) = true
  | Abort _ st' =>
      target_rec_measurements st' = target_rec_measurements st
      \/ exists m,
           target_rec_measurements st' = target_rec_measurements st ++ [m]
  end.
Proof.
  unfold init_design_check.
  destruct (measurement st) as [m|]; [|by left].
  destruct (eqb m _) eqn:E; simpl; [|eauto].
  destruct samples as [|s0 ?]; simpl; [eauto|].
  destruct (eqb (s s0) lit_1_0); simpl; eauto.
Qed.

Lemma loop_body_trace (st : State P) :
  match loop_body LOOKUP cfg st with
  | Continue st' =>
      exists m, target_rec_measurements st' = target_rec_measurements st ++ [m]
  | Break st' =>
      exists m,
        target_rec_measurements st' = target_rec_measurements st ++ [m]
        /\ eqb m (min_hse06_bandgap cfg) = true
  | Abort _ st' =>
      target_rec_measurements st' = target_rec_measurements st
      \/ exists m,
           target_rec_measurements st' = target_rec_measurements st ++ [m]
  end.
Proof.
  unfold loop_body.
  destruct (requested cfg st) as [[samples|e] st1] eqn:Hreq;
    apply requested_frame in Hreq as (_ & _ & _ & _ & Ht1); [|by left].
  destruct (for_samples LOOKUP samples st1) as [st2 [e|]] eqn:Hfor;
    apply for_samples_frame in Hfor as (_ & Ht2 & _); [left; congruence|].
  rewrite <- Ht1, <- Ht2. unfold convergence_check.
  destruct (_ >? _).
  - pose proof (greedy_check_trace st2) as Hg.
    destruct (greedy_check LOOKUP cfg st2); auto.
  - apply init_design_check_trace.
Qed.

(** X5: the [for] loop stops at the first sample the oracle fails on.  The
    samples before it are recorded, in order and each with its measurement,
    and counted in [iter_]; the failing sample and the samples after it
    leave no trace, and the exception is the oracle's. *)
Theorem for_samples_stops_at_first_failure
    (pre post : list Sample) (bad : Sample) (e : exn) (st : State P) :
  Forall (fun x => exists m, measure LOOKUP x (s x) = Ok m) pre ->
  measure LOOKUP bad (s bad) = Raise e ->
  exists done : list Observation,
    for_samples LOOKUP (pre ++ bad :: post) st
    = (fst (for_samples LOOKUP pre st), Some e)
    /\ campaign (fst (for_samples LOOKUP pre st)) = campaign st ++ done
    /\ done.*1 = pre
    /\ Forall (committed LOOKUP) done
    /\ iter_ (fst (for_samples LOOKUP pre st))
       = iter_ st + Z.of_nat (length pre).
Proof.
  intros Hpre Hbad.
  destruct (for_samples_all_measured pre st Hpre) as [st' Hfor].
  destruct (for_samples_ledger LOOKUP pre st st' None Hfor)
    as (done & Hc & Hall & _ & Hi & Hnone).
  exists done. rewrite for_samples_app, Hfor. simpl. rewrite Hbad.
  specialize (Hnone eq_refl).
  repeat split; auto.
  rewrite Hi, <- Hnone. by rewrite length_fmap.
Qed.

(** X6: a pass that ends normally, by falling through or by [break], has
    recorded the whole batch the planner returned, in order; [iter_] has
    advanced by the size of the batch, not by one, and
    [target_rec_measurements] has exactly one entry more, whatever the size
    of the batch. *)
Theorem pass_records_whole_batch (st st1 st' : State P) samples :
  requested cfg st = (Ok samples, st1) ->
  loop_body LOOKUP cfg st = Continue st'
  \/ loop_body LOOKUP cfg st = Break st' ->
  (campaign st').*1 = (campaign st).*1 ++ samples
  /\ Forall (committed LOOKUP) (drop (length (campaign st)) (campaign st'))
  /\ iter_ st' = iter_ st + Z.of_nat (length samples)
  /\ exists m,
       target_rec_measurements st' = target_rec_measurements st ++ [m].
Proof.
  intros Hreq Hend.
  pose proof (loop_body_ledger LOOKUP cfg st) as (done & Hc & Hall & Hi & Hs).
  pose proof (loop_body_trace st) as Ht.
  assert (state_of (loop_body LOOKUP cfg st) = st') as Hst
    by (by destruct Hend as [-> | ->]).
  rewrite Hst in Hc, Hi.
  destruct (Hs samples st1 Hreq) as [(e & st2 & Hfor)|Hfst].
  { unfold loop_body in Hend. rewrite Hreq, Hfor in Hend.
    by destruct Hend. }
  split; [by rewrite Hc, fmap_app, Hfst|].
  split; [by rewrite Hc, drop_app_length|].
  split; [by rewrite Hi, <- Hfst, length_fmap|].
  destruct Hend as [Hend|Hend]; rewrite Hend in Ht.
  - exact Ht.
  - destruct Ht as (m & Ht & _). by exists m.
Qed.

(** X7: when the greedy recommendation of a steady-state pass fails (the
    planner raises, returns no sample, or proposes a sample the oracle
    fails on), the pass raises after its batch was recorded: the whole
    batch stays in the ledger and in [iter_], and no entry is added to
    [target_rec_measurements] for that pass. *)
Theorem greedy_failure_keeps_batch
    (st st1 st2 st' : State P) samples (e : exn) :
  requested cfg st = (Ok samples, st1) ->
  for_samples LOOKUP samples st1 = (st2, None) ->
  NUM_INIT_DESIGN cfg < num_obs st2 ->
  loop_body LOOKUP cfg st = Abort e st' ->
  (campaign st').*1 = (campaign st).*1 ++ samples
  /\ Forall (committed LOOKUP) (drop (length (campaign st)) (campaign st'))
  /\ iter_ st' = iter_ st + Z.of_nat (length samples)
  /\ target_rec_measurements st' = target_rec_measurements st.
Proof.
  intros Hreq Hfor Hsteady Hbody.
  pose proof (loop_body_ledger LOOKUP cfg st) as (done & Hc & Hall & Hi & Hs).
  rewrite Hbody in Hc, Hi. simpl in Hc, Hi.
  destruct (Hs samples st1 Hreq) as [(e' & st2' & Hfor')|Hfst];
    [congruence|].
  split; [by rewrite Hc, fmap_app, Hfst|].
  split; [by rewrite Hc, drop_app_length|].
  split; [by rewrite Hi, <- Hfst, length_fmap|].
  pose proof (requested_frame cfg st _ _ Hreq) as (_ & _ & _ & _ & Ht1).
  pose proof (for_samples_frame LOOKUP samples st1 st2 None Hfor)
    as (_ & Ht2 & _).
  unfold loop_body in Hbody. rewrite Hreq, Hfor in Hbody.
  unfold convergence_check in Hbody.
  assert ((num_obs st2 >? NUM_INIT_DESIGN cfg) = true) as Hgt by lia.
  rewrite Hgt in Hbody.
  pose proof (greedy_check_trace st2) as Hg. rewrite Hbody in Hg.
  congruence.
Qed.

End PassFacts.

(** ** More on the whole run *)

Section RunFacts.

Context {P : Type} `{Planner P}.
Variable LOOKUP : Table.
Variable cfg : Config.

Lemma measure_Ok_known_fidelity params sf m :
  measure LOOKUP params sf = Ok m ->
  eqb sf lit_1_0 = true \/ eqb sf lit_0_1 = true.
Proof.
  unfold measure. destruct (eqb sf lit_1_0); [by left|].
  destruct (eqb sf lit_0_1); [by right|done].
Qed.

Lemma eqb_nan_r m target : is_nan target = true -> eqb m target = false.
Proof. destruct target; [|done..]. by destruct m. Qed.

(** In every state a run can end in, as in every state it passes through,
    the ledger holds complete observations, [iter_] counts them and
    [measurement] is bound to the last measurement. *)
Lemma run_invariant fuel : forall batches (st : State P),
  reachable LOOKUP cfg batches st ->
  Forall (committed LOOKUP) (campaign (final (run LOOKUP cfg fuel st)))
  /\ iter_ (final (run LOOKUP cfg fuel st))
     = num_obs (final (run LOOKUP cfg fuel st))
  /\ measurement (final (run LOOKUP cfg fuel st))
     = snd <$> last (campaign (final (run LOOKUP cfg fuel st))).
Proof.
  induction fuel as [|n IH]; simpl; intros batches st Hreach;
    pose proof (reachable_invariant LOOKUP cfg batches st Hreach)
      as (_ & Hall & Hit & Hm & _); [done|].
  destruct (ltb (COST st) _) eqn:Hlt; [|done].
  pose proof (loop_body_ledger LOOKUP cfg st) as (done & Hc & Hdone & Hi & _).
  pose proof (loop_body_measurement LOOKUP cfg st Hm) as Hm'.
  destruct (loop_body LOOKUP cfg st) as [st'|st'|e st'] eqn:Hbody;
    simpl in *.
  - destruct (requested cfg st) as [[samples|e] st1] eqn:Hreq.
    + apply (IH (batches ++ [samples])).
      by apply (reach_pass LOOKUP cfg batches st samples st1 st').
    + unfold loop_body in Hbody. by rewrite Hreq in Hbody.
  - split; [rewrite Hc; by apply Forall_app|]. split; [|done].
    unfold num_obs in *. rewrite Hi, Hc, length_app. lia.
  - split; [rewrite Hc; by apply Forall_app|]. split; [|done].
    unfold num_obs in *. rewrite Hi, Hc, length_app. lia.
Qed.

Lemma run_converged fuel : forall (st st' : State P),
  run LOOKUP cfg fuel st = Converged st' ->
  exists m,
    last (target_rec_measurements st') = Some m
    /\ eqb m (min_hse06_bandgap cfg) = true.
Proof.
  induction fuel as [|n IH]; simpl; intros st st' Hrun; [done|].
  destruct (ltb (COST st) _); [|done].
  pose proof (loop_body_trace LOOKUP cfg st) as Ht.
  destruct (loop_body LOOKUP cfg st) as [st1|st1|e st1]; [by eapply IH| |done].
  injection Hrun as ->. destruct Ht as (m & -> & Heq).
  exists m. by rewrite last_snoc.
Qed.

(** X8: no run ever charges a cost.  Whatever the planner, the table and
    the configuration, and however the cell ends, [COST] at the end is
    [COST] at the start; and the [while] condition ends the cell only
    where it is false before the first pass: then no pass has run and
    nothing has changed. *)
Theorem cost_is_never_charged (fuel : nat) (st : State P) :
  COST (final (run LOOKUP cfg fuel st)) = COST st
  /\ forall st',
       run LOOKUP cfg fuel st = BudgetExhausted st' ->
       st' = st /\ ltb (COST st) (of_Z (COST_BUDGET cfg)) = false.
Proof.
  split; [apply run_COST|].
  intros st' Hrun. destruct fuel as [|n]; simpl in Hrun; [done|].
  destruct (ltb (COST st) _) eqn:Hlt; [|by injection Hrun as ->].
  pose proof (loop_body_COST LOOKUP cfg st) as Hc.
  destruct (loop_body LOOKUP cfg st) as [st1|st1|e st1]; [|done..].
  simpl in Hc. exfalso.
  apply (run_budget_unreachable LOOKUP cfg n st1 st'); [|done].
  by rewrite Hc.
Qed.

(** X9: the two ledgers are append-only over a run.  The observations and
    the target-recommendation trace at the start are prefixes of what they
    are where the cell ends, so nothing recorded is ever changed or
    removed; [iter_] and the observation count never decrease. *)
Theorem ledgers_are_append_only (fuel : nat) : forall st : State P,
  campaign st `prefix_of` campaign (final (run LOOKUP cfg fuel st))
  /\ target_rec_measurements st
     `prefix_of` target_rec_measurements (final (run LOOKUP cfg fuel st))
  /\ iter_ st <= iter_ (final (run LOOKUP cfg fuel st))
  /\ num_obs st <= num_obs (final (run LOOKUP cfg fuel st)).
Proof.
  induction fuel as [|n IH]; simpl; intros st; [by repeat split|].
  destruct (ltb (COST st) _); [|by repeat split].
  pose proof (loop_body_ledger LOOKUP cfg st) as (done & Hc & _ & Hi & _).
  pose proof (loop_body_trace LOOKUP cfg st) as Ht.
  assert (campaign st `prefix_of` campaign (state_of (loop_body LOOKUP cfg st))
          /\ target_rec_measurements st
             `prefix_of` target_rec_measurements
                           (state_of (loop_body LOOKUP cfg st))
          /\ iter_ st <= iter_ (state_of (loop_body LOOKUP cfg st))
          /\ num_obs st <= num_obs (state_of (loop_body LOOKUP cfg st)))
    as (Hp1 & Hp2 & Hp3 & Hp4).
  { split; [by exists done|]. split.
    - destruct (loop_body LOOKUP cfg st) as [st1|st1|e st1]; simpl.
      + destruct Ht as [m ->]. by eexists.
      + destruct Ht as (m & -> & _). by eexists.
      + destruct Ht as [->|[m ->]]; [done|by eexists].
    - unfold num_obs. rewrite Hi, Hc, length_app. lia. }
  destruct (loop_body LOOKUP cfg st) as [st1|st1|e st1]; simpl in *;
    [|done..].
  destruct (IH st1) as (Hq1 & Hq2 & Hq3 & Hq4).
  split; [by etrans|]. split; [by etrans|]. lia.
Qed.

(** X10: wherever a run started from the initial state ends (budget,
    [break], exception, or still running), every entry of the ledger is a
    sample with the measurement the oracle returns for it at its own
    fidelity, that fidelity is 1.0 or 0.1 whatever the planner proposed,
    [iter_] equals the number of observations, and [measurement] is bound
    to the measurement of the last observation (unbound when there is
    none). *)
Theorem ledger_holds_oracle_values (p : P) (fuel : nat) :
  Forall (fun o : Observation =>
            measure LOOKUP o.1 (s o.1) = Ok o.2
            /\ (eqb (s o.1) lit_1_0 = true \/ eqb (s o.1) lit_0_1 = true))
    (campaign (final (run LOOKUP cfg fuel (init p))))
  /\ iter_ (final (run LOOKUP cfg fuel (init p)))
     = num_obs (final (run LOOKUP cfg fuel (init p)))
  /\ measurement (final (run LOOKUP cfg fuel (init p)))
     = snd <$> last (campaign (final (run LOOKUP cfg fuel (init p)))).
Proof.
  destruct (run_invariant fuel [] (init p) (reach_init LOOKUP cfg p))
    as (Hall & Hi & Hm).
  split; [|done].
  eapply Forall_impl; [exact Hall|].
  intros o Ho. split; [exact Ho|]. by eapply measure_Ok_known_fidelity.
Qed.

(** X11: between passes, [target_rec_measurements] has one entry per
    completed pass, while the ledger and [iter_] have one per sample: the
    ledger's samples are the batches of the passes, concatenated. *)
Theorem one_trace_entry_per_pass batches (st : State P) :
  reachable LOOKUP cfg batches st ->
  length (target_rec_measurements st) = length batches
  /\ (campaign st).*1 = concat batches
  /\ iter_ st = Z.of_nat (length (concat batches)).
Proof.
  intros Hreach.
  pose proof (reachable_invariant LOOKUP cfg batches st Hreach)
    as (Hcat & _ & Hit & _).
  split; [|split; [done|]].
  - clear Hcat Hit.
    induction Hreach as [p|batches st samples st1 st' Hr IH Hlt Hreq Hbody];
      [done|].
    pose proof (loop_body_trace LOOKUP cfg st) as Ht.
    rewrite Hbody in Ht. destruct Ht as [m ->].
    rewrite !length_app, IH. done.
  - rewrite Hit. unfold num_obs. by rewrite <- Hcat, length_fmap.
Qed.

(** X12: the cell ends by [break] only on the optimum: the last entry of
    [target_rec_measurements] is then a measurement equal ([==]) to
    [min_hse06_bandgap], and neither of the two is NaN.  So with NaN as
    [min_hse06_bandgap] the loop never ends by [break], also not on a NaN
    measurement. *)
Theorem break_only_on_optimum (fuel : nat) (st st' : State P) :
  run LOOKUP cfg fuel st = Converged st' ->
  exists m,
    last (target_rec_measurements st') = Some m
    /\ eqb m (min_hse06_bandgap cfg) = true
    /\ is_nan m = false
    /\ is_nan (min_hse06_bandgap cfg) = false.
Proof.
  intros Hrun. apply run_converged in Hrun as (m & Hlast & Heq).
  exists m. split; [done|]. split; [done|].
  destruct (is_nan (min_hse06_bandgap cfg)) eqn:Hnan.
  - by rewrite (eqb_nan_r m _ Hnan) in Heq.
  - split; [|done]. destruct m; [|done..].
    by destruct (min_hse06_bandgap cfg).
Qed.

End RunFacts.

(** X13: the schedule has period [NUM_CHEAP] and ignores its sign: shifting
    the iteration index by a multiple of the cadence, or negating the
    cadence, asks for the same fidelity (or raises the same
    [ZeroDivisionError] for cadence 0); a cadence of 1 asks for fidelity 1.0
    at every index. *)
Theorem ask_fidelity_periodic (i k n : Z) :
  ask_fidelity (i + n * k) k = ask_fidelity i k
  /\ ask_fidelity i (- k) = ask_fidelity i k
  /\ ask_fidelity i 1 = Ok lit_1_0.
Proof.
  unfold ask_fidelity. split; [|split].
  - destruct (k =? 0) eqn:Hk; [done|]. by rewrite Z_mod_plus_full.
  - destruct (k =? 0) eqn:Hk.
    + by assert ((- k =? 0) = true) as -> by lia.
    + assert ((- k =? 0) = false) as -> by lia.
      assert ((i mod - k =? 0) = (i mod k =? 0)) as ->; [|done].
      apply Z.eqb_neq in Hk.
      destruct (i mod k =? 0) eqn:E.
      * apply Z.eqb_eq. apply Z.eqb_eq in E.
        apply Z.mod_divide in E; [|done].
        apply Z.mod_divide; [lia|]. by apply Z.divide_opp_l.
      * apply Z.eqb_neq. apply Z.eqb_neq in E. intros E'. apply E.
        apply Z.mod_divide in E'; [|lia].
        apply Z.mod_divide; [done|]. by apply (proj1 (Z.divide_opp_l k i)).
  - by rewrite Z.mod_1_r.
Qed.

(** ** Concrete runs for the facts above *)

Section MoreInstances.

Import Fixture.

(** A batch of three whose second sample is not in the table. *)
Lemma for_samples_stops_at_first_failure_witness :
  exists done : list Observation,
    for_samples table ([ma_pb_i lit_1_0] ++ unseen :: [fa_sn_br lit_0_1])
      (init (mkEcho lit_0_0))
    = (fst (for_samples table [ma_pb_i lit_1_0] (init (mkEcho lit_0_0))),
       Some (KeyError "Ea"))
    /\ done.*1 = [ma_pb_i lit_1_0].
Proof.
  destruct (for_samples_stops_at_first_failure table
              [ma_pb_i lit_1_0] [fa_sn_br lit_0_1] unseen (KeyError "Ea")
              (init (mkEcho lit_0_0)))
    as (done & Hfor & _ & Hdone & _).
  - repeat constructor. exists (Fin (3 # 2)). vm_compute. reflexivity.
  - vm_compute. reflexivity.
  - exists done. split; [exact Hfor | exact Hdone].
Defined.

(** A pass with a batch of two: [iter_] goes from 0 to 2, the trace gets
    one entry. *)
Lemma pass_records_whole_batch_witness :
  let st :=
    init (replay [Ok [ma_pb_i lit_1_0; ma_pb_i lit_0_1]] (Raise PlannerError)) in
  let st' := state_of (loop_body table scenario st) in
  iter_ st' = 0 + Z.of_nat 2
  /\ exists m, target_rec_measurements st' = [] ++ [m].
Proof.
  intros st st'.
  destruct (pass_records_whole_batch table scenario st
              (requested scenario st).2 st'
              [ma_pb_i lit_1_0; ma_pb_i lit_0_1])
    as (_ & _ & Hi & Ht).
  - vm_compute. reflexivity.
  - left. vm_compute. reflexivity.
  - split; [exact Hi | exact Ht].
Defined.

(** Past the initial design, a planner whose greedy recommendation
    raises. *)
Lemma greedy_failure_keeps_batch_witness :
  let cfg := mkConfig 50 0 8 lit_0_8 in
  let st := init (replay [Ok [ma_pb_i lit_1_0]] (Raise PlannerError)) in
  let st' := state_of (loop_body table cfg st) in
  (campaign st').*1 = [] ++ [ma_pb_i lit_1_0]
  /\ target_rec_measurements st' = [].
Proof.
  intros cfg st st'.
  destruct (greedy_failure_keeps_batch table cfg st
              (requested cfg st).2
              (for_samples table [ma_pb_i lit_1_0] (requested cfg st).2).1
              st' [ma_pb_i lit_1_0] PlannerError)
    as (Hc & _ & _ & Ht).
  - vm_compute. reflexivity.
  - vm_compute. reflexivity.
  - vm_compute. reflexivity.
  - vm_compute. reflexivity.
  - split; [exact Hc | exact Ht].
Defined.

Lemma one_trace_entry_per_pass_witness :
  let st0 :=
    init (replay [Ok [ma_pb_i lit_1_0; ma_pb_i lit_0_1]] (Raise PlannerError)) in
  let st := state_of (loop_body table scenario st0) in
  length (target_rec_measurements st) = 1%nat /\ iter_ st = 2.
Proof.
  intros st0 st.
  destruct (one_trace_entry_per_pass table scenario
              [[ma_pb_i lit_1_0; ma_pb_i lit_0_1]] st)
    as (Ht & _ & Hi).
  - apply (reach_pass table scenario [] st0
             [ma_pb_i lit_1_0; ma_pb_i lit_0_1]
             (requested scenario st0).2 st (reach_init table scenario _));
      vm_compute; reflexivity.
  - split; [exact Ht | exact Hi].
Defined.

Lemma break_only_on_optimum_witness :
  let cfg := mkConfig 50 0 8 lit_0_8 in
  let st := init (replay [Ok [ma_pb_i lit_1_0]] (Ok [fa_sn_br lit_1_0])) in
  exists m,
    last (target_rec_measurements (final (run table cfg 1 st))) = Some m
    /\ eqb m (min_hse06_bandgap cfg) = true
    /\ is_nan m = false
    /\ is_nan (min_hse06_bandgap cfg) = false.
Proof.
  intros cfg st.
  apply (break_only_on_optimum table cfg 1 st (final (run table cfg 1 st))).
  vm_compute. reflexivity.
Defined.

End MoreInstances.
